(** * PID controller simulation: a shallow embedding of
    [Python_Implementation/PID_controller.py]

    The module under study is the single function
    [simulate_pid_with_metrics(Kp, Ki, Kd, Gs, t)].  It picks a controller
    transfer function from the three gains, closes the loop around the plant
    [Gs] (or leaves the plant alone when all gains are zero), asks the
    python-control package for the step response and the step metrics, and
    returns [(time, response, info)].

    Modelling choices.
    - Python floats and numpy [float64] are Rocq's primitive binary64 floats;
      [x == 0] is [PrimFloat.eqb x 0] (so that [-0.0 == 0] holds and
      [nan == 0] does not), [x != 0] is its negation.  Integer gains such as
      the [5, 10, 15] of the driver are their float values.
    - A transfer function is the pair of coefficient lists handed to
      [ct.tf(num, den)], highest degree first.
    - The python-control package is not part of the repository: its four
      entry points used here are the fields of the class [ControlLib].
      [step_response] and [step_info] may raise.  [ct.tf], [sys1 * sys2]
      and [ct.feedback] (lines 17-27) are taken to return a system: what
      they would raise comes before line 29 and is outside the model.
    - Exceptions are values of [exn]; a computation of the function is a
      state-and-error monad over the console ([print] appends a line). *)

From Stdlib Require Import PrimFloat.
From stdpp Require Import gmap strings list fin_maps.

#[local] Set Warnings "-inexact-float,-clear-no-such-hyp".
#[local] Open Scope string_scope.

(** ** Python values *)

(** [x == 0] and [x != 0] on a float. *)
Definition py_eq0 (x : float) : bool := PrimFloat.eqb x 0%float.
Definition py_ne0 (x : float) : bool := negb (PrimFloat.eqb x 0%float).

(** An instance of [Exception]: its class name and its message. *)
Record exn := Exception { exn_class : string; exn_msg : string }.

Definition IndexError : exn :=
  Exception "IndexError" "index -1 is out of bounds for axis 0 with size 0".

(** The outcome of an expression that can raise. *)
Inductive result (A : Type) : Type :=
  | Return (a : A)
  | Raise (e : exn).
Arguments Return {A} a.
Arguments Raise {A} e.

(** A line written by [print].  The only [print] of the function is the
    warning of line 44, an f-string over the three gains and the exception. *)
Inductive line : Type :=
  | Warning (Kp Ki Kd : float) (e : exn).

Definition console : Type := list line.

(** ** The monad of the function body: console state and exceptions *)

Definition py (A : Type) : Type := console → console * result A.

Definition py_ret {A} (a : A) : py A := λ out, (out, Return a).

Definition py_bind {A B} (m : py A) (k : A → py B) : py B :=
  λ out, match m out with
         | (out', Return a) => k a out'
         | (out', Raise e) => (out', Raise e)
         end.

(** An expression evaluated for its value or its exception. *)
Definition call {A} (r : result A) : py A := λ out, (out, r).

Definition print (l : line) : py unit := λ out, ((out ++ [l])%list, Return tt).

(** [try: body except Exception as e: handler(e)]. *)
Definition try_except {A} (body : py A) (handler : exn → py A) : py A :=
  λ out, match body out with
         | (out', Return a) => (out', Return a)
         | (out', Raise e) => handler e out'
         end.

Notation "'let*' x ':=' m 'in' k" := (py_bind m (λ x, k))
  (at level 10, x name, m at level 100, k at level 200).
Notation "'let*' ' p ':=' m 'in' k" := (py_bind m (λ x, match x with p => k end))
  (at level 10, p pattern, m at level 100, k at level 200).

(** [a[-1]] on a one-dimensional array: the last element, [IndexError] when
    the array is empty. *)
Definition getitem_last (a : list float) : result float :=
  match last a with
  | Some x => Return x
  | None => Raise IndexError
  end.

(** ** Transfer functions and the python-control interface *)

(** [ct.tf(num, den)]: the coefficient lists as the caller wrote them. *)
Record TransferFunction := tf { num : list float; den : list float }.

(** The entry points of python-control that the function calls. *)
Class ControlLib := {
  (** [sys1 * sys2], the series connection. *)
  tf_mul : TransferFunction → TransferFunction → TransferFunction;
  (** [ct.feedback(sys1, sys2)] with a scalar [sys2] in the return path and
      the default [sign=-1] (negative feedback). *)
  feedback : TransferFunction → float → TransferFunction;
  (** [ct.step_response(sys, T=t)]: the pair [(time, response)]. *)
  step_response : TransferFunction → list float → result (list float * list float);
  (** [ct.step_info(sys, T=t, SettlingTimeThreshold=thr)]: a fresh dict of
      metrics, string keys and float values. *)
  step_info : TransferFunction → list float → float → result (gmap string float);
}.

(** The keys every metrics record is required to have, and the three of
    them that come from [step_info] on the primary path. *)
Definition required_keys : gset string :=
  {[ "Overshoot"; "SettlingTime"; "RiseTime"; "SteadyStateError" ]}.

Definition step_info_keys : gset string :=
  {[ "Overshoot"; "SettlingTime"; "RiseTime" ]}.

(** ** The function *)

Section Simulate.
Context {lib : ControlLib}.

(** Lines 11-23: the value bound to [Cs].  [None] when line 12 is taken and
    no controller is constructed. *)
Definition Cs (Kp Ki Kd : float) : option TransferFunction :=
  if py_eq0 Kp && py_eq0 Ki && py_eq0 Kd then None
  else if py_eq0 Ki && py_eq0 Kd then Some (tf [Kp] [1%float])
  else if py_eq0 Ki && py_ne0 Kd then Some (tf [Kd; Kp] [1%float])
  else if py_eq0 Kd then Some (tf [Kp; Ki] [1%float; 0%float])
  else Some (tf [Kd; Kp; Ki] [1%float; 0%float]).

(** Lines 11-27: the value bound to [system_to_sim]. *)
Definition system_to_sim (Kp Ki Kd : float) (Gs : TransferFunction) : TransferFunction :=
  match Cs Kp Ki Kd with
  | None => Gs
  | Some C => feedback (tf_mul C Gs) 1%float
  end.

Definition SettlingTimeThreshold : float := 0.02%float.

(** Lines 39-41: the body of the [try] after [step_info] has returned. *)
Definition with_steady_state_error (response : list float) (info : gmap string float)
  : py (gmap string float) :=
  let* final_value := call (getitem_last response) in
  let steady_state_error := (1.0 - final_value)%float in
  py_ret (<["SteadyStateError" := steady_state_error]> info).

(** Line 48: the dict literal of the handler. *)
Definition fallback_record (steady_state_error : float) : gmap string float :=
  <["SteadyStateError" := steady_state_error]>
    (<["Overshoot" := 0.0%float]>
      (<["SettlingTime" := 0.0%float]>
        (<["RiseTime" := 0.0%float]> ∅))).

(** Lines 44-48: the handler. *)
Definition fallback (Kp Ki Kd : float) (response : list float) (e : exn)
  : py (gmap string float) :=
  let* _ := print (Warning Kp Ki Kd e) in
  let* final_value := call (getitem_last response) in
  let steady_state_error := (1.0 - final_value)%float in
  py_ret (fallback_record steady_state_error).

(** Lines 9-50. *)
Definition simulate_pid_with_metrics (Kp Ki Kd : float) (Gs : TransferFunction)
    (t : list float) : py (list float * list float * gmap string float) :=
  let sys := system_to_sim Kp Ki Kd Gs in
  let* '(time, response) := call (step_response sys t) in
  let* info :=
    try_except
      (let* info := call (step_info sys t SettlingTimeThreshold) in
       with_steady_state_error response info)
      (fallback Kp Ki Kd response) in
  py_ret (time, response, info).

End Simulate.

Section FromLine29.
Context {lib : ControlLib}.

(** Lines 29-50 on their own: the rest of the function once
    [system_to_sim] is bound to [sys], whatever lines 11-27 made of it. *)
Definition simulate_system (Kp Ki Kd : float) (sys : TransferFunction)
    (t : list float) : py (list float * list float * gmap string float) :=
  let* '(time, response) := call (step_response sys t) in
  let* info :=
    try_except
      (let* info := call (step_info sys t SettlingTimeThreshold) in
       with_steady_state_error response info)
      (fallback Kp Ki Kd response) in
  py_ret (time, response, info).

End FromLine29.

(** ** The driver (lines 55-188): what it reads and its tuning loops

    The driver calls the function for a series of gains, reads entries of
    the records it gets back and hands the curves to matplotlib.  The parts
    modelled are the subscripts of the metrics table and the four [for]
    loops; each [plt.plot] of a loop adds a curve to the current figure.
    The text of a label is an f-string: a label is kept as the values the
    f-string is built from. *)

Definition KeyError (key : string) : exn := Exception "KeyError" key.

(** [d[key]] on a dict: [KeyError] when the key is missing. *)
Definition dict_getitem (d : gmap string float) (key : string) : result float :=
  match d !! key with
  | Some v => Return v
  | None => Raise (KeyError key)
  end.

(** Lines 158, 167 and 175: the three subscripts of a row of the metrics
    table, [info['Overshoot']], [info['SettlingTime']] and
    [info['SteadyStateError']], evaluated from left to right. *)
Definition metrics_row (info : gmap string float) : result (float * float * float) :=
  match dict_getitem info "Overshoot" with
  | Raise e => Raise e
  | Return overshoot =>
      match dict_getitem info "SettlingTime" with
      | Raise e => Raise e
      | Return settling_time =>
          match dict_getitem info "SteadyStateError" with
          | Raise e => Raise e
          | Return steady_state_error =>
              Return (overshoot, settling_time, steady_state_error)
          end
      end
  end.

(** The two label formats of the loops:
    [f'Kp = {i} (OS: {info_p["Overshoot"]:.1f}%)'] (lines 91, 124, 141, with
    [Kp], [Ki] or [Kd] as the name) and [f'Kd = {j} (Kp={Kp_fixed_pd})']
    (line 107). *)
Inductive plot_label : Type :=
  | OvershootLabel (name : string) (value overshoot : float)
  | FixedKpLabel (value Kp : float).

(** A curve drawn by [plt.plot(x, y, label=...)]. *)
Record plot_call := Plot {
  xdata : list float;
  ydata : list float;
  label : plot_label;
}.

(** What the driver acts on: the console and the curves of the figure. *)
Record world := World { stdout : console; figure : list plot_call }.

Definition prog (A : Type) : Type := world → world * result A.

Definition prog_ret {A} (a : A) : prog A := λ w, (w, Return a).

Definition prog_bind {A B} (m : prog A) (k : A → prog B) : prog B :=
  λ w, match m w with
       | (w', Return a) => k a w'
       | (w', Raise e) => (w', Raise e)
       end.

(** A computation on the console alone, run by the driver. *)
Definition lift {A} (m : py A) : prog A :=
  λ w, let '(out', r) := m (stdout w) in (World out' (figure w), r).

Definition plt_plot (x y : list float) (l : plot_label) : prog unit :=
  λ w, (World (stdout w) (figure w ++ [Plot x y l])%list, Return tt).

Notation "'let+' x ':=' m 'in' k" := (prog_bind m (λ x, k))
  (at level 10, x name, m at level 100, k at level 200).
Notation "'let+' ' p ':=' m 'in' k" := (prog_bind m (λ x, match x with p => k end))
  (at level 10, p pattern, m at level 100, k at level 200).

(** [for x in xs: body(x)]. *)
Fixpoint for_each {X} (xs : list X) (body : X → prog unit) : prog unit :=
  match xs with
  | [] => prog_ret tt
  | x :: xs' => let+ _ := body x in for_each xs' body
  end.

(** Which of the two label formats a loop uses. *)
Inductive legend : Type :=
  | OvershootLegend (name : string)
  | FixedKpLegend (Kp : float).

(** The label of the curve for the loop value [x]; the first format reads
    [info["Overshoot"]]. *)
Definition make_label (lg : legend) (x : float) (info : gmap string float)
  : result plot_label :=
  match lg with
  | OvershootLegend name =>
      match dict_getitem info "Overshoot" with
      | Return overshoot => Return (OvershootLabel name x overshoot)
      | Raise e => Raise e
      end
  | FixedKpLegend Kp => Return (FixedKpLabel x Kp)
  end.

(** The keys of the record that a label format reads. *)
Definition legend_reads (lg : legend) : gset string :=
  match lg with
  | OvershootLegend _ => {[ "Overshoot" ]}
  | FixedKpLegend _ => ∅
  end.

(** A step response with at least one sample. *)
Definition has_samples (r : result (list float * list float)) : bool :=
  match r with
  | Return (_, _ :: _) => true
  | _ => false
  end.

Section Driver.
Context {lib : ControlLib}.

(** The shape shared by the loops of lines 89-91, 105-107, 122-124 and
    139-141: simulate with the gains of the loop value, then plot the curve
    under its label. *)
Definition tuning_loop (gains : float → float * float * float) (lg : legend)
    (Gs : TransferFunction) (t : list float) (xs : list float) : prog unit :=
  for_each xs (λ x,
    let '(Kp, Ki, Kd) := gains x in
    let+ '(t_x, r_x, info_x) := lift (simulate_pid_with_metrics Kp Ki Kd Gs t) in
    let+ l := lift (call (make_label lg x info_x)) in
    plt_plot t_x r_x l).

(** Lines 89-91. *)
Definition plot2_loop (Gs : TransferFunction) (t : list float) : prog unit :=
  tuning_loop (λ i, (i, 0, 0)%float) (OvershootLegend "Kp") Gs t [5; 10; 15]%float.

(** Lines 103-107. *)
Definition plot3_loop (Gs : TransferFunction) (t : list float) : prog unit :=
  tuning_loop (λ j, (10.0, 0, j)%float) (FixedKpLegend 10.0) Gs t [0.5; 1.0; 2.0]%float.

(** Lines 120-124. *)
Definition plot4_loop (Gs : TransferFunction) (t : list float) : prog unit :=
  tuning_loop (λ k, (10.0, k, 0)%float) (OvershootLegend "Ki") Gs t [5; 20; 50]%float.

(** Lines 136-141. *)
Definition plot5_loop (Gs : TransferFunction) (t : list float) : prog unit :=
  tuning_loop (λ l, (10.0, 40.0, l)%float) (OvershootLegend "Kd") Gs t [0.5; 1.0; 1.5]%float.

End Driver.

(** ** A small executable instance of the interface

    Used to run the function on concrete inputs.  Transfer-function algebra
    is polynomial arithmetic on the coefficient lists; the step response is
    a forward-Euler integration of the controllable companion form, sampled
    at the caller's time points; [step_info] reads its metrics off the
    sampled curve, normalised by the final sample, and raises when that
    sample is zero or not finite. *)

Module Reference.
#[local] Open Scope float_scope.

Definition zeros (n : nat) : list float := replicate n 0.

Definition pad_to (n : nat) (p : list float) : list float :=
  (zeros (n - length p) ++ p)%list.

Definition polyadd (p q : list float) : list float :=
  let n := Nat.max (length p) (length q) in
  zip_with PrimFloat.add (pad_to n p) (pad_to n q).

Fixpoint polymul (p q : list float) : list float :=
  match p with
  | [] => []
  | a :: p' => polyadd (map (PrimFloat.mul a) q ++ zeros (length p'))%list (polymul p' q)
  end.

Definition series (s1 s2 : TransferFunction) : TransferFunction :=
  tf (polymul (num s1) (num s2)) (polymul (den s1) (den s2)).

(** [s / (1 + k s)]. *)
Definition closed_loop (s : TransferFunction) (k : float) : TransferFunction :=
  tf (num s) (polyadd (den s) (map (PrimFloat.mul k) (num s))).

Definition dot (u v : list float) : float :=
  foldr PrimFloat.add 0 (zip_with PrimFloat.mul u v).

(** One Euler step of [x1' = 1 - a.x], [x(i+1)' = xi] under a unit input. *)
Definition euler_step (a : list float) (dt : float) (x : list float) : list float :=
  zip_with (λ xi dxi, xi + dt * dxi) x ((1 - dot a x) :: x).

Fixpoint float_of_nat (n : nat) : float :=
  match n with
  | O => 0
  | S k => float_of_nat k + 1
  end.

(** Euler steps taken between two consecutive time samples. *)
Definition substeps : nat := 16.

Fixpoint euler (a c : list float) (d tprev : float) (x ts : list float) : list float :=
  match ts with
  | [] => []
  | tk :: ts' =>
      let h := (tk - tprev) / float_of_nat substeps in
      let x' := Nat.iter substeps (euler_step a h) x in
      (dot c x' + d) :: euler a c d tk x' ts'
  end.

Definition ValueError (msg : string) : exn := Exception "ValueError" msg.

Definition solve (sys : TransferFunction) (t : list float)
  : result (list float * list float) :=
  match t, den sys with
  | [], _ => Raise (ValueError "the time grid is empty")
  | _, [] => Raise (ValueError "the denominator is empty")
  | t0 :: ts, a0 :: a_rest =>
      if a0 =? 0 then Raise (ValueError "the leading denominator coefficient is zero")
      else if (S (length a_rest) <? length (num sys))%nat
      then Raise (ValueError "the transfer function is improper")
      else
        let n := length a_rest in
        let a := map (λ ai, ai / a0) a_rest in
        let b := map (λ bi, bi / a0) (pad_to (S n) (num sys)) in
        let b0 := hd 0 b in
        let c := zip_with (λ bi ai, bi - ai * b0) (tl b) a in
        Return (t, b0 :: euler a c b0 t0 (zeros n) ts)
  end.

Definition fmax (x y : float) : float := if x <? y then y else x.
Definition fmin (x y : float) : float := if y <? x then y else x.

(** The time of the first sample whose value satisfies [p]; the last time
    of the grid when there is none. *)
Fixpoint first_time (p : float → bool) (tm y : list float) (dflt : float) : float :=
  match tm, y with
  | tk :: tm', v :: y' => if p v then tk else first_time p tm' y' tk
  | _, _ => dflt
  end.

(** The samples from the first one whose value satisfies [p]. *)
Fixpoint from_first (p : float → bool) (y : list float) : list float :=
  match y with
  | [] => []
  | v :: y' => if p v then y else from_first p y'
  end.

(** The first time from which every sample satisfies [p]. *)
Definition settled_from (p : float → bool) (tm y : list float) (tlast : float) : float :=
  snd (foldr (λ '(tk, v) '(ok, ts), if ok && p v then (true, tk) else (false, ts))
         (true, tlast) (zip tm y)).

Definition not_normalisable : exn :=
  Exception "ArithmeticError" "the final value is zero or not finite".

Definition metrics (tm y : list float) (thr : float) : result (gmap string float) :=
  match last y with
  | None => Raise IndexError
  | Some yf =>
      if is_zero yf || negb (is_finite yf)
      then Raise not_normalisable
      else
        let tlast := default 0 (last tm) in
        let yn := map (λ v, v / yf) y in
        let risen := from_first (λ v, 0.9 <=? v) yn in
        let peak := foldr fmax 0 (map abs y) in
        Return (<["RiseTime" := first_time (λ v, 0.9 <=? v) tm yn tlast
                              - first_time (λ v, 0.1 <=? v) tm yn tlast]>
               (<["SettlingTime" := settled_from (λ v, abs (v - 1) <=? thr) tm yn tlast]>
               (<["SettlingMin" := yf * foldr fmin 1 risen]>
               (<["SettlingMax" := yf * foldr fmax 1 risen]>
               (<["Overshoot" := fmax 0 (100 * (foldr fmax 1 yn - 1))]>
               (<["Undershoot" := fmax 0 (-100 * foldr fmin 0 yn)]>
               (<["Peak" := peak]>
               (<["PeakTime" := first_time (λ v, abs v =? peak) tm y tlast]>
               (<["SteadyStateValue" := yf]> ∅)))))))))
  end.

Definition info_of (sys : TransferFunction) (t : list float) (thr : float)
  : result (gmap string float) :=
  match solve sys t with
  | Raise e => Raise e
  | Return (tm, y) => metrics tm y thr
  end.

(** The keys of the dict built by [metrics]. *)
Definition info_keys : gset string :=
  {[ "RiseTime"; "SettlingTime"; "SettlingMin"; "SettlingMax"; "Overshoot";
     "Undershoot"; "Peak"; "PeakTime"; "SteadyStateValue" ]}.

Definition control : ControlLib :=
  {| tf_mul := series; feedback := closed_loop;
     step_response := solve; step_info := info_of |}.

(** The plant of the driver, [5 / (s^2 + 11 s + 10)], and a short grid. *)
Definition Gs : TransferFunction := tf [5.0] [1.0; 11.0; 10.0].

(** [np.linspace(a, b, n)] for [n > 1]. *)
Definition linspace (a b : float) (n : nat) : list float :=
  map (λ i, a + (b - a) * (float_of_nat i / float_of_nat (n - 1))) (seq 0 n).

Definition grid : list float := linspace 0 5 51.

(** The driver's manual tune, [(Kp, Ki, Kd) = (10, 40, 1.5)], evaluated. *)
Definition manual_tune_run
  : console * result (list float * list float * gmap string float) :=
  Eval vm_compute in
    @simulate_pid_with_metrics control 10 40 1.5 Gs grid [].

Definition manual_tune_info : result (gmap string float) :=
  Eval vm_compute in
    info_of (@system_to_sim control 10 40 1.5 Gs) grid SettlingTimeThreshold.

(** Three gains of [-1000]: the closed loop is unstable and the curve
    leaves the floats' range before the end of the grid. *)
Definition unstable_response : list float :=
  Eval vm_compute in
    match solve (@system_to_sim control (-1000) (-1000) (-1000) Gs) grid with
    | Return (_, y) => y
    | Raise _ => []
    end.

Definition unstable_run
  : console * result (list float * list float * gmap string float) :=
  Eval vm_compute in
    @simulate_pid_with_metrics control (-1000) (-1000) (-1000) Gs grid [].

(** A plant with more zeros than poles, [s^2 / (s + 1)]: [solve] refuses
    it as it is and accepts it inside a closed loop. *)
Definition improper_plant : TransferFunction := tf [1.0; 0.0; 0.0] [1.0; 1.0].

End Reference.

(** * Properties *)

(** ** Running the function on the driver's plant *)

Example Cs_driver_pid :
  Cs 10 40 1.5 = Some (tf [1.5; 10; 40] [1; 0])%float.
Proof. reflexivity. Qed.

Example system_driver_pid :
  @system_to_sim Reference.control 10 40 1.5 Reference.Gs
  = tf [7.5; 50; 200]%float [1; 18.5; 60; 200]%float.
Proof. vm_compute. reflexivity. Qed.

(** The plant alone on [0, 5]: the curve ends near the plant's DC gain
    [0.5], and so does the steady-state error. *)
Example open_loop_steady_state_error :
  match (@simulate_pid_with_metrics Reference.control 0 0 0
           Reference.Gs Reference.grid []).2 with
  | Return (_, response, info) => (last response, info !! "SteadyStateError")
  | Raise _ => (None, None)
  end = (Some 0.49631497170807404%float, Some 0.50368502829192596%float).
Proof. vm_compute. reflexivity. Qed.

(** Proportional control improves on it. *)
Example proportional_steady_state_error :
  match (@simulate_pid_with_metrics Reference.control 10 0 0
           Reference.Gs Reference.grid []).2 with
  | Return (_, response, info) => (last response, info !! "SteadyStateError")
  | Raise _ => (None, None)
  end = (Some 0.83333333333425397%float, Some 0.16666666666574603%float).
Proof. vm_compute. reflexivity. Qed.

(** The reference [step_info] returns the nine keys of python-control's. *)
Lemma reference_info_of_keys sys t thr d :
  Reference.info_of sys t thr = Return d → dom d = Reference.info_keys.
Proof.
  unfold Reference.info_of, Reference.metrics.
  destruct (Reference.solve sys t) as [[tm y]|e]; [|discriminate].
  destruct (last y) as [yf|]; [|discriminate].
  destruct (_ || _); [discriminate|]. intros [= <-].
  rewrite !dom_insert_L, dom_empty_L. unfold Reference.info_keys. set_solver.
Qed.

(** ** The shape of a run *)

Section Properties.
Context {lib : ControlLib}.
Implicit Types (Kp Ki Kd : float) (Gs : TransferFunction) (t : list float).
Implicit Types (out : console) (e : exn) (d info : gmap string float).

(** The function, with the monad unfolded: one equation per path. *)
Lemma simulate_unfold Kp Ki Kd Gs t out :
  simulate_pid_with_metrics Kp Ki Kd Gs t out =
  let sys := system_to_sim Kp Ki Kd Gs in
  match step_response sys t with
  | Raise e => (out, Raise e)
  | Return (time, response) =>
      match step_info sys t SettlingTimeThreshold, last response with
      | Return d, Some y =>
          (out, Return (time, response, <["SteadyStateError" := (1.0 - y)%float]> d))
      | Return d, None =>
          ((out ++ [Warning Kp Ki Kd IndexError])%list, Raise IndexError)
      | Raise e, Some y =>
          ((out ++ [Warning Kp Ki Kd e])%list,
           Return (time, response, fallback_record (1.0 - y)%float))
      | Raise e, None =>
          ((out ++ [Warning Kp Ki Kd e])%list, Raise IndexError)
      end
  end.
Proof.
  unfold simulate_pid_with_metrics, try_except, with_steady_state_error,
    fallback, py_bind, call, print, py_ret, getitem_last; cbn zeta.
  destruct (step_response _ t) as [[time response]|e]; [|reflexivity].
  destruct (step_info _ t _) as [d|e], (last response) as [y|]; reflexivity.
Qed.

(** What a returning run tells about the two library calls. *)
Lemma simulate_Return_inv Kp Ki Kd Gs t out out' time response info :
  simulate_pid_with_metrics Kp Ki Kd Gs t out = (out', Return (time, response, info)) →
  let sys := system_to_sim Kp Ki Kd Gs in
  step_response sys t = Return (time, response) ∧
  ∃ y, last response = Some y ∧
    ((∃ d, step_info sys t SettlingTimeThreshold = Return d ∧ out' = out ∧
           info = <["SteadyStateError" := (1.0 - y)%float]> d) ∨
     (∃ e, step_info sys t SettlingTimeThreshold = Raise e ∧
           out' = (out ++ [Warning Kp Ki Kd e])%list ∧
           info = fallback_record (1.0 - y)%float)).
Proof.
  rewrite simulate_unfold; cbn zeta.
  destruct (step_response _ t) as [[tm r]|e]; [|discriminate].
  destruct (step_info _ t _) as [d|e], (last r) as [y|] eqn:Hy;
    intros [= <- <- <- <-] || intros [=]; (split; [reflexivity|]);
    exists y; (split; [exact Hy|]); [left|right]; eauto.
Qed.

Lemma dom_fallback_record x : dom (fallback_record x) = required_keys.
Proof.
  unfold fallback_record, required_keys.
  rewrite !dom_insert_L, dom_empty_L. set_solver.
Qed.

(** [print] leaves a console that differs from the one it started from. *)
Lemma console_grows out (l : line) : out ≠ (out ++ [l])%list.
Proof.
  intros Heq. apply (f_equal length) in Heq.
  rewrite length_app in Heq. cbn in Heq. lia.
Qed.

Lemma py_ne0_eq0 (x : float) : py_ne0 x = negb (py_eq0 x).
Proof. reflexivity. Qed.

(** Case analysis on the three tests [Kp == 0], [Ki == 0], [Kd == 0]. *)
Ltac gains Kp Ki Kd :=
  unfold Cs, system_to_sim, Cs; rewrite ?py_ne0_eq0 in *;
  destruct (py_eq0 Kp), (py_eq0 Ki), (py_eq0 Kd); cbn in *.

(** ** The controller (lines 11-23) *)

(** The five conditions on the gains leave no triple out. *)
Lemma controller_cases_exhaustive Kp Ki Kd :
  (py_eq0 Kp = true ∧ py_eq0 Ki = true ∧ py_eq0 Kd = true) ∨
  (py_ne0 Kp = true ∧ py_eq0 Ki = true ∧ py_eq0 Kd = true) ∨
  (py_eq0 Ki = true ∧ py_ne0 Kd = true) ∨
  (py_ne0 Ki = true ∧ py_eq0 Kd = true) ∨
  (py_ne0 Ki = true ∧ py_ne0 Kd = true).
Proof. gains Kp Ki Kd; tauto. Qed.

(** C1. The controller is chosen among five mutually exclusive cases, one
    of which always applies:
    all gains zero, no controller and the plant is simulated as it is;
    [Ki == 0] and [Kd == 0] (with [Kp != 0]), [tf([Kp], [1])];
    [Ki == 0] and [Kd != 0], [tf([Kd, Kp], [1])], which is not the form
    [tf([Kd, Kp, 0], [1, 0])] with a pole at the origin;
    [Kd == 0] and [Ki != 0], [tf([Kp, Ki], [1, 0])];
    otherwise [tf([Kd, Kp, Ki], [1, 0])]. *)
Theorem controller_five_cases Kp Ki Kd :
  (py_eq0 Kp = true ∧ py_eq0 Ki = true ∧ py_eq0 Kd = true →
     Cs Kp Ki Kd = None ∧ ∀ Gs, system_to_sim Kp Ki Kd Gs = Gs) ∧
  (py_ne0 Kp = true ∧ py_eq0 Ki = true ∧ py_eq0 Kd = true →
     Cs Kp Ki Kd = Some (tf [Kp] [1%float])) ∧
  (py_eq0 Ki = true ∧ py_ne0 Kd = true →
     Cs Kp Ki Kd = Some (tf [Kd; Kp] [1%float]) ∧
     Cs Kp Ki Kd ≠ Some (tf [Kd; Kp; 0%float] [1%float; 0%float])) ∧
  (py_ne0 Ki = true ∧ py_eq0 Kd = true →
     Cs Kp Ki Kd = Some (tf [Kp; Ki] [1%float; 0%float])) ∧
  (py_ne0 Ki = true ∧ py_ne0 Kd = true →
     Cs Kp Ki Kd = Some (tf [Kd; Kp; Ki] [1%float; 0%float])) ∧
  ((py_eq0 Kp = true ∧ py_eq0 Ki = true ∧ py_eq0 Kd = true) ∨
   (py_ne0 Kp = true ∧ py_eq0 Ki = true ∧ py_eq0 Kd = true) ∨
   (py_eq0 Ki = true ∧ py_ne0 Kd = true) ∨
   (py_ne0 Ki = true ∧ py_eq0 Kd = true) ∨
   (py_ne0 Ki = true ∧ py_ne0 Kd = true)).
Proof.
  do 5 (split; [gains Kp Ki Kd; intuition (try discriminate; try reflexivity)|]).
  apply controller_cases_exhaustive.
Qed.

(** C7, as amended.  With [Ki == 0] and [Kd == 0] the controller is the
    constant gain [tf([Kp], [1])], one coefficient above and one below,
    exactly when [Kp != 0]; with [Kp == 0] as well there is no controller. *)
Theorem pure_gain_unless_all_zero Kp Ki Kd :
  py_eq0 Ki = true → py_eq0 Kd = true →
  Cs Kp Ki Kd = (if py_eq0 Kp then None else Some (tf [Kp] [1%float])) ∧
  (py_ne0 Kp = true →
   ∃ C, Cs Kp Ki Kd = Some C ∧ num C = [Kp] ∧ den C = [1%float] ∧
        length (num C) = 1%nat ∧ length (den C) = 1%nat).
Proof.
  intros HKi HKd. unfold Cs. rewrite HKi, HKd, (py_ne0_eq0 Kp).
  destruct (py_eq0 Kp); cbn; (split; [reflexivity|]); [intros [=]|].
  intros _. eexists. split; [reflexivity|]. cbn. auto.
Qed.

(** ** The system that is simulated (lines 11-30) *)

(** C4. With all three gains zero the simulated system is the plant itself,
    and the curve returned is the plant's own step response on the grid. *)
Theorem open_loop_when_all_zero Kp Ki Kd Gs t :
  py_eq0 Kp = true → py_eq0 Ki = true → py_eq0 Kd = true →
  system_to_sim Kp Ki Kd Gs = Gs ∧
  (∀ out out' time response info,
     simulate_pid_with_metrics Kp Ki Kd Gs t out = (out', Return (time, response, info)) →
     step_response Gs t = Return (time, response)) ∧
  (∀ time response,
     step_response Gs t = Return (time, response) → response ≠ [] →
     ∀ out, ∃ out' info,
       simulate_pid_with_metrics Kp Ki Kd Gs t out = (out', Return (time, response, info))).
Proof.
  intros HKp HKi HKd.
  assert (Hsys : system_to_sim Kp Ki Kd Gs = Gs).
  { unfold system_to_sim, Cs. rewrite HKp, HKi, HKd. reflexivity. }
  split; [exact Hsys|]. split.
  - intros out out' time response info Hrun.
    apply simulate_Return_inv in Hrun as [Hsolve _].
    rewrite Hsys in Hsolve. exact Hsolve.
  - intros time response Hsolve Hne out.
    rewrite simulate_unfold; cbn zeta. rewrite Hsys, Hsolve.
    destruct (last response) as [y|] eqn:Hy.
    + destruct (step_info Gs t _); eauto.
    + apply last_None in Hy. contradiction.
Qed.

(** C5. With a gain that is not zero the simulated system is
    [feedback(Cs * Gs, 1)]: the controller in series with the plant, then
    the loop closed with unity negative feedback.  It is the system whose
    step response the function asks for: a curve the function returns is
    the step response of that system, a step response of that system with
    at least one sample is returned, and an exception of its step response
    is raised by the function. *)
Theorem closed_loop_when_some_gain Kp Ki Kd Gs :
  py_ne0 Kp = true ∨ py_ne0 Ki = true ∨ py_ne0 Kd = true →
  ∃ C, Cs Kp Ki Kd = Some C ∧
       system_to_sim Kp Ki Kd Gs = feedback (tf_mul C Gs) 1%float ∧
       (∀ t out out' time response info,
          simulate_pid_with_metrics Kp Ki Kd Gs t out
            = (out', Return (time, response, info)) →
          step_response (feedback (tf_mul C Gs) 1%float) t = Return (time, response)) ∧
       (∀ t time response,
          step_response (feedback (tf_mul C Gs) 1%float) t = Return (time, response) →
          response ≠ [] →
          ∀ out, ∃ out' info,
            simulate_pid_with_metrics Kp Ki Kd Gs t out
              = (out', Return (time, response, info))) ∧
       (∀ t e out,
          step_response (feedback (tf_mul C Gs) 1%float) t = Raise e →
          simulate_pid_with_metrics Kp Ki Kd Gs t out = (out, Raise e)).
Proof.
  intros Hsome.
  assert (HC : ∃ C, Cs Kp Ki Kd = Some C).
  { gains Kp Ki Kd; intuition (try discriminate; eauto). }
  destruct HC as [C HC]. exists C.
  assert (Hsys : system_to_sim Kp Ki Kd Gs = feedback (tf_mul C Gs) 1%float).
  { unfold system_to_sim. rewrite HC. reflexivity. }
  split; [exact HC|]. split; [exact Hsys|]. split; [|split].
  - intros t out out' time response info Hrun.
    apply simulate_Return_inv in Hrun as [Hsolve _].
    rewrite Hsys in Hsolve. exact Hsolve.
  - intros t time response Hsolve Hne out.
    rewrite simulate_unfold; cbn zeta. rewrite Hsys, Hsolve.
    destruct (last response) as [y|] eqn:Hy.
    + destruct (step_info _ t _); eauto.
    + apply last_None in Hy. contradiction.
  - intros t e out Hsolve.
    rewrite simulate_unfold; cbn zeta. rewrite Hsys, Hsolve. reflexivity.
Qed.

(** ** The metrics record (lines 33-48) *)

(** C2. When the step response has been computed and has a last sample,
    and [step_info] raises, the function does not raise: it prints the
    warning and returns the curve with the record of line 48, whose
    [Overshoot], [SettlingTime] and [RiseTime] are [0.0] and whose
    [SteadyStateError] is [1.0 - response[-1]]. *)
Theorem fallback_on_step_info_failure Kp Ki Kd Gs t out time response y e :
  step_response (system_to_sim Kp Ki Kd Gs) t = Return (time, response) →
  last response = Some y →
  step_info (system_to_sim Kp Ki Kd Gs) t SettlingTimeThreshold = Raise e →
  ∃ info,
    simulate_pid_with_metrics Kp Ki Kd Gs t out
      = ((out ++ [Warning Kp Ki Kd e])%list, Return (time, response, info)) ∧
    info !! "Overshoot" = Some 0.0%float ∧
    info !! "SettlingTime" = Some 0.0%float ∧
    info !! "RiseTime" = Some 0.0%float ∧
    info !! "SteadyStateError" = Some (1.0 - y)%float.
Proof.
  intros Hsolve Hlast Hinfo. exists (fallback_record (1.0 - y)%float). split.
  - rewrite simulate_unfold; cbn zeta. rewrite Hsolve, Hinfo, Hlast. reflexivity.
  - unfold fallback_record. repeat split; by simplify_map_eq.
Qed.

(** C3. Whenever the function returns, on either path, the record's
    [SteadyStateError] is [1.0] minus the last sample of the returned curve. *)
Theorem steady_state_error_is_one_minus_last
    Kp Ki Kd Gs t out out' time response info :
  simulate_pid_with_metrics Kp Ki Kd Gs t out = (out', Return (time, response, info)) →
  ∃ y, last response = Some y ∧
       info !! "SteadyStateError" = Some (1.0 - y)%float.
Proof.
  intros Hrun. apply simulate_Return_inv in Hrun as (_ & y & Hy & Hpath).
  exists y. split; [exact Hy|].
  destruct Hpath as [(d & _ & _ & ->)|(e & _ & _ & ->)].
  - apply lookup_insert_eq.
  - unfold fallback_record. apply lookup_insert_eq.
Qed.

(** C6. Whenever the function returns, the record has the four keys
    [Overshoot], [SettlingTime], [RiseTime] and [SteadyStateError], given
    that a dict returned by [step_info] has the first three (python-control
    documents them among the keys of its result). *)
Theorem metrics_record_has_required_keys
    Kp Ki Kd Gs t out out' time response info :
  (∀ d, step_info (system_to_sim Kp Ki Kd Gs) t SettlingTimeThreshold = Return d →
        step_info_keys ⊆ dom d) →
  simulate_pid_with_metrics Kp Ki Kd Gs t out = (out', Return (time, response, info)) →
  required_keys ⊆ dom info.
Proof.
  intros Hlib Hrun. apply simulate_Return_inv in Hrun as (_ & y & _ & Hpath).
  destruct Hpath as [(d & Hd & _ & ->)|(e & _ & _ & ->)].
  - specialize (Hlib d Hd). rewrite dom_insert_L.
    unfold required_keys, step_info_keys in *. set_solver.
  - rewrite dom_fallback_record. reflexivity.
Qed.

(** C10. The record's set of keys depends on the path.  After a failure of
    [step_info] it is exactly the four required keys.  After a success it is
    the keys of the dict [step_info] returned together with
    [SteadyStateError]; this is strictly more than the four required keys
    as soon as that dict has the three required metrics and one more entry
    (python-control's has [Peak], [PeakTime] and others). *)
Theorem record_keys_by_path Kp Ki Kd Gs t out out' time response info :
  simulate_pid_with_metrics Kp Ki Kd Gs t out = (out', Return (time, response, info)) →
  match step_info (system_to_sim Kp Ki Kd Gs) t SettlingTimeThreshold with
  | Raise _ => dom info = required_keys
  | Return d =>
      dom info = dom d ∪ {["SteadyStateError"]} ∧
      (step_info_keys ⊆ dom d → (∃ k, k ∈ dom d ∧ k ∉ required_keys) →
       required_keys ⊂ dom info)
  end.
Proof.
  intros Hrun. apply simulate_Return_inv in Hrun as (_ & y & _ & Hpath).
  destruct Hpath as [(d & -> & _ & ->)|(e & -> & _ & ->)].
  - rewrite dom_insert_L. split; [set_solver|].
    unfold required_keys, step_info_keys. intros Hthree (k & Hk & Hextra).
    split; [set_solver|]. intros Hsub. apply Hextra, Hsub. set_solver.
  - apply dom_fallback_record.
Qed.

(** ** Exceptions and the console *)

(** C9. An exception raised by [step_response] (line 30, before the [try])
    leaves the function as it is: nothing is printed and no record is
    returned.  The handler is entered only after [step_response] has
    returned, on an exception of [step_info] or of the steady-state
    computation that follows it (the [IndexError] of an empty curve). *)
Theorem solver_failure_propagates Kp Ki Kd Gs t out :
  (∀ e, step_response (system_to_sim Kp Ki Kd Gs) t = Raise e →
        simulate_pid_with_metrics Kp Ki Kd Gs t out = (out, Raise e)) ∧
  (∀ e r,
     simulate_pid_with_metrics Kp Ki Kd Gs t out
       = ((out ++ [Warning Kp Ki Kd e])%list, r) →
     ∃ time response,
       step_response (system_to_sim Kp Ki Kd Gs) t = Return (time, response) ∧
       (step_info (system_to_sim Kp Ki Kd Gs) t SettlingTimeThreshold = Raise e ∨
        (response = [] ∧ e = IndexError))).
Proof.
  split.
  - intros e Hsolve. rewrite simulate_unfold; cbn zeta. rewrite Hsolve. reflexivity.
  - intros e r. rewrite simulate_unfold; cbn zeta.
    destruct (step_response _ t) as [[time response]|e0].
    + destruct (step_info _ t _) as [d|e1], (last response) as [y|] eqn:Hlast;
        intros [= Hout Hr]; try (apply console_grows in Hout; contradiction);
        apply app_inv_head in Hout; injection Hout as <-;
        exists time, response; (split; [reflexivity|]); [right|left|left]; auto.
      split; [apply last_None, Hlast|reflexivity].
    + intros [= Hout Hr]. apply console_grows in Hout. contradiction.
Qed.

(** The handler covers the whole [try] block: with an empty curve the
    [IndexError] of line 39 is caught, and line 46 raises it again. *)
Lemma empty_response_raises Kp Ki Kd Gs t out time :
  step_response (system_to_sim Kp Ki Kd Gs) t = Return (time, []) →
  ∃ out', simulate_pid_with_metrics Kp Ki Kd Gs t out = (out', Raise IndexError).
Proof.
  intros Hsolve. rewrite simulate_unfold; cbn zeta. rewrite Hsolve.
  destruct (step_info _ t _); cbn; eauto.
Qed.

End Properties.

(** ** The theorems at concrete inputs *)

(** One set of gains per case of the controller. *)
Example Cs_off : Cs 0 0 0 = None.
Proof. reflexivity. Qed.

Example Cs_P : Cs 10 0 0 = Some (tf [10] [1])%float.
Proof. reflexivity. Qed.

Example Cs_PD : Cs 10 0 0.5 = Some (tf [0.5; 10] [1])%float.
Proof. reflexivity. Qed.

Example Cs_PI : Cs 10 20 0 = Some (tf [10; 20] [1; 0])%float.
Proof. reflexivity. Qed.

Example Cs_negative_zero : Cs (-0) 0 (-0) = None.
Proof. reflexivity. Qed.

(** C7 as first stated, for every [Kp], fails at [Kp = 0]: the two tests
    hold, and no controller is built, so none that is the gain [0]. *)
Lemma pure_gain_fails_at_zero :
  py_eq0 0 = true ∧ py_eq0 0 = true ∧
  Cs 0 0 0 = None ∧ Cs 0 0 0 ≠ Some (tf [0%float] [1%float]).
Proof. repeat split. discriminate. Qed.

(** The difference shows in what is simulated: the plant, not the loop
    closed around a zero gain. *)
Example zero_gain_loop_is_not_the_plant :
  @system_to_sim Reference.control 0 0 0 Reference.Gs = Reference.Gs ∧
  @feedback Reference.control
     (@tf_mul Reference.control (tf [0%float] [1%float]) Reference.Gs) 1%float
  ≠ Reference.Gs.
Proof. split; [reflexivity|]. vm_compute. discriminate. Qed.

Lemma pure_gain_unless_all_zero_witness :
  Cs 10 0 0 = Some (tf [10%float] [1%float]) ∧
  ∃ C, Cs 10 0 0 = Some C ∧ num C = [10%float] ∧ den C = [1%float] ∧
       length (num C) = 1%nat ∧ length (den C) = 1%nat.
Proof.
  destruct (pure_gain_unless_all_zero 10 0 0 eq_refl eq_refl) as [Hgain Horder].
  split; [exact Hgain|exact (Horder eq_refl)].
Defined.

Lemma open_loop_when_all_zero_witness :
  let Gs := Reference.Gs in
  let t := Reference.grid in
  @system_to_sim Reference.control 0 0 0 Gs = Gs ∧
  (∀ out out' time response info,
     @simulate_pid_with_metrics Reference.control 0 0 0 Gs t out
       = (out', Return (time, response, info)) →
     Reference.solve Gs t = Return (time, response)) ∧
  (∀ time response,
     Reference.solve Gs t = Return (time, response) → response ≠ [] →
     ∀ out, ∃ out' info,
       @simulate_pid_with_metrics Reference.control 0 0 0 Gs t out
         = (out', Return (time, response, info))).
Proof.
  exact (@open_loop_when_all_zero Reference.control 0 0 0 Reference.Gs Reference.grid
           eq_refl eq_refl eq_refl).
Defined.

(** With three gains of [-1000] the curve ends at minus infinity and
    [Reference.info_of] raises: the run takes the handler. *)
Lemma fallback_on_step_info_failure_witness :
  ∃ info,
    @simulate_pid_with_metrics Reference.control (-1000) (-1000) (-1000)
       Reference.Gs Reference.grid []
      = ([Warning (-1000) (-1000) (-1000) Reference.not_normalisable],
         Return (Reference.grid, Reference.unstable_response, info)) ∧
    info !! "Overshoot" = Some 0.0%float ∧
    info !! "SettlingTime" = Some 0.0%float ∧
    info !! "RiseTime" = Some 0.0%float ∧
    info !! "SteadyStateError" = Some (1.0 - neg_infinity)%float.
Proof.
  apply (@fallback_on_step_info_failure Reference.control (-1000) (-1000) (-1000)
           Reference.Gs Reference.grid []
           Reference.grid Reference.unstable_response neg_infinity
           Reference.not_normalisable);
    vm_compute; reflexivity.
Defined.

(** The two evaluated runs are runs of the function: the manual tune
    returns through the [try], the unstable loop through the handler. *)
Lemma manual_tune_run_eq :
  @simulate_pid_with_metrics Reference.control 10 40 1.5 Reference.Gs Reference.grid []
  = Reference.manual_tune_run.
Proof. vm_cast_no_check (@eq_refl _ Reference.manual_tune_run). Qed.

(** The manual tune closes the loop around the driver's plant: the system
    simulated is [(7.5 s^2 + 50 s + 200) / (s^3 + 18.5 s^2 + 60 s + 200)],
    and the curve returned is its step response on the grid. *)
Lemma closed_loop_when_some_gain_witness :
  ∃ C time response info,
    Cs 10 40 1.5 = Some C ∧
    @system_to_sim Reference.control 10 40 1.5 Reference.Gs
      = Reference.closed_loop (Reference.series C Reference.Gs) 1%float ∧
    Reference.closed_loop (Reference.series C Reference.Gs) 1%float
      = tf [7.5; 50; 200]%float [1; 18.5; 60; 200]%float ∧
    @simulate_pid_with_metrics Reference.control 10 40 1.5 Reference.Gs Reference.grid []
      = ([], Return (time, response, info)) ∧
    Reference.solve (tf [7.5; 50; 200]%float [1; 18.5; 60; 200]%float) Reference.grid
      = Return (time, response).
Proof.
  destruct (@closed_loop_when_some_gain Reference.control 10 40 1.5 Reference.Gs
              (or_introl eq_refl))
    as (C & HC & Hsys & Hcurve & _ & _).
  pose proof manual_tune_run_eq as Hrun. unfold Reference.manual_tune_run in Hrun.
  specialize (Hcurve _ _ _ _ _ _ Hrun).
  assert (Hloop : Reference.closed_loop (Reference.series C Reference.Gs) 1%float
                  = tf [7.5; 50; 200]%float [1; 18.5; 60; 200]%float).
  { injection HC as <-. vm_compute. reflexivity. }
  eexists C, _, _, _. split; [exact HC|]. split; [exact Hsys|].
  split; [exact Hloop|]. split; [exact Hrun|].
  rewrite <- Hloop. exact Hcurve.
Defined.

Lemma manual_tune_info_eq :
  @step_info Reference.control
     (@system_to_sim Reference.control 10 40 1.5 Reference.Gs)
     Reference.grid SettlingTimeThreshold
  = Reference.manual_tune_info.
Proof. vm_cast_no_check (@eq_refl _ Reference.manual_tune_info). Qed.

Lemma unstable_run_eq :
  @simulate_pid_with_metrics Reference.control (-1000) (-1000) (-1000)
     Reference.Gs Reference.grid []
  = Reference.unstable_run.
Proof. vm_cast_no_check (@eq_refl _ Reference.unstable_run). Qed.

Lemma unstable_info_raises :
  @step_info Reference.control
     (@system_to_sim Reference.control (-1000) (-1000) (-1000) Reference.Gs)
     Reference.grid SettlingTimeThreshold
  = Raise Reference.not_normalisable.
Proof. vm_compute. reflexivity. Qed.

Lemma steady_state_error_is_one_minus_last_witness :
  (∃ time response info,
     @simulate_pid_with_metrics Reference.control 10 40 1.5 Reference.Gs Reference.grid []
       = ([], Return (time, response, info)) ∧
     ∃ y, last response = Some y ∧
          info !! "SteadyStateError" = Some (1.0 - y)%float) ∧
  (∃ w time response info,
     @simulate_pid_with_metrics Reference.control (-1000) (-1000) (-1000)
        Reference.Gs Reference.grid []
       = ([w], Return (time, response, info)) ∧
     ∃ y, last response = Some y ∧
          info !! "SteadyStateError" = Some (1.0 - y)%float).
Proof.
  split.
  - pose proof manual_tune_run_eq as Hrun. unfold Reference.manual_tune_run in Hrun.
    eexists _, _, _. split; [exact Hrun|].
    exact (steady_state_error_is_one_minus_last _ _ _ _ _ _ _ _ _ _ Hrun).
  - pose proof unstable_run_eq as Hrun. unfold Reference.unstable_run in Hrun.
    eexists _, _, _, _. split; [exact Hrun|].
    exact (steady_state_error_is_one_minus_last _ _ _ _ _ _ _ _ _ _ Hrun).
Defined.

Lemma metrics_record_has_required_keys_witness :
  ∃ time response info,
    @simulate_pid_with_metrics Reference.control 10 40 1.5 Reference.Gs Reference.grid []
      = ([], Return (time, response, info)) ∧
    required_keys ⊆ dom info.
Proof.
  pose proof manual_tune_run_eq as Hrun. unfold Reference.manual_tune_run in Hrun.
  eexists _, _, _. split; [exact Hrun|].
  refine (metrics_record_has_required_keys _ _ _ _ _ _ _ _ _ _ _ Hrun).
  intros d Hd. apply reference_info_of_keys in Hd. rewrite Hd.
  apply (bool_decide_unpack _). vm_compute. exact I.
Defined.

Lemma record_keys_by_path_witness :
  (∃ time response info d,
     @simulate_pid_with_metrics Reference.control 10 40 1.5 Reference.Gs Reference.grid []
       = ([], Return (time, response, info)) ∧
     @step_info Reference.control
        (@system_to_sim Reference.control 10 40 1.5 Reference.Gs)
        Reference.grid SettlingTimeThreshold = Return d ∧
     dom info = dom d ∪ {["SteadyStateError"]} ∧
     required_keys ⊂ dom info) ∧
  (∃ w time response info e,
     @simulate_pid_with_metrics Reference.control (-1000) (-1000) (-1000)
        Reference.Gs Reference.grid []
       = ([w], Return (time, response, info)) ∧
     @step_info Reference.control
        (@system_to_sim Reference.control (-1000) (-1000) (-1000) Reference.Gs)
        Reference.grid SettlingTimeThreshold = Raise e ∧
     dom info = required_keys).
Proof.
  split.
  - pose proof manual_tune_run_eq as Hrun. unfold Reference.manual_tune_run in Hrun.
    pose proof manual_tune_info_eq as Hd. unfold Reference.manual_tune_info in Hd.
    pose proof (record_keys_by_path _ _ _ _ _ _ _ _ _ _ Hrun) as Hkeys.
    rewrite Hd in Hkeys. destruct Hkeys as [Hdom Hstrict].
    eexists _, _, _, _. split; [exact Hrun|]. split; [exact Hd|].
    split; [exact Hdom|].
    apply reference_info_of_keys in Hd.
    apply Hstrict; [|exists "Peak"; split]; rewrite ?Hd;
      apply (bool_decide_unpack _); vm_compute; exact I.
  - pose proof unstable_run_eq as Hrun. unfold Reference.unstable_run in Hrun.
    pose proof (record_keys_by_path _ _ _ _ _ _ _ _ _ _ Hrun) as Hkeys.
    rewrite unstable_info_raises in Hkeys.
    eexists _, _, _, _, _. split; [exact Hrun|].
    split; [exact unstable_info_raises|exact Hkeys].
Defined.

(** The reference solver refuses an empty grid: the function raises the
    same exception and the console stays empty. *)
Lemma solver_failure_propagates_witness :
  @simulate_pid_with_metrics Reference.control 10 0 1 Reference.Gs [] []
  = ([], Raise (Reference.ValueError "the time grid is empty")).
Proof.
  apply (proj1 (@solver_failure_propagates Reference.control 10 0 1 Reference.Gs [] [])).
  reflexivity.
Defined.

(** * Further properties of the function and of the driver *)

Section MoreProperties.
Context {lib : ControlLib}.
#[local] Open Scope list_scope.
Implicit Types (Kp Ki Kd : float) (Gs : TransferFunction) (t : list float).
Implicit Types (out : console) (e : exn) (d info : gmap string float).
Implicit Types (w : world) (lg : legend).

(** ** Outcomes of a call *)

(** The function is lines 29-50 run on the system of lines 11-27. *)
Lemma simulate_from_line_29 Kp Ki Kd Gs t :
  simulate_pid_with_metrics Kp Ki Kd Gs t
  = simulate_system Kp Ki Kd (system_to_sim Kp Ki Kd Gs) t.
Proof. reflexivity. Qed.

(** X1. From line 29 on, with [system_to_sim] bound to any system, the
    function raises in two situations only: [step_response] raised, and the
    exception is that one; or [step_response] returned a curve without
    samples, and the exception is the [IndexError] of [response[-1]].  An
    exception of [step_info] is never the reason.  (What [ct.tf], [*] and
    [ct.feedback] may raise on lines 17-27 comes before and is not covered.) *)
Theorem raises_iff Kp Ki Kd (sys : TransferFunction) t out e :
  (∃ out', simulate_system Kp Ki Kd sys t out = (out', Raise e)) ↔
  step_response sys t = Raise e ∨
  (e = IndexError ∧ ∃ time, step_response sys t = Return (time, [])).
Proof.
  unfold simulate_system, try_except, with_steady_state_error,
    fallback, py_bind, call, print, py_ret, getitem_last. split.
  - intros [out' Hrun].
    destruct (step_response sys t) as [[time response]|e0].
    + destruct (step_info sys t _) as [d|e1], (last response) as [y|] eqn:Hlast;
        try discriminate; injection Hrun as _ <-; right;
        apply last_None in Hlast; subst response; eauto.
    + injection Hrun as _ <-. left. reflexivity.
  - intros [Hsolve|[-> [time Hsolve]]]; rewrite Hsolve; cbn.
    + eauto.
    + destruct (step_info sys t _); eauto.
Qed.

(** X2. On the path through the [try], every entry of the dict returned by
    [step_info] reaches the caller with its value: the record is that dict
    with [SteadyStateError] set, nothing else is added, removed or changed,
    and nothing is printed. *)
Theorem step_info_values_are_kept Kp Ki Kd Gs t out out' time response info d :
  simulate_pid_with_metrics Kp Ki Kd Gs t out = (out', Return (time, response, info)) →
  step_info (system_to_sim Kp Ki Kd Gs) t SettlingTimeThreshold = Return d →
  out' = out ∧
  (∀ key, key ≠ "SteadyStateError" → info !! key = d !! key) ∧
  delete "SteadyStateError" info = delete "SteadyStateError" d.
Proof.
  intros Hrun Hd. apply simulate_Return_inv in Hrun as (_ & y & _ & Hpath).
  destruct Hpath as [(d' & Hd' & -> & ->)|(e & He & _)]; [|congruence].
  assert (d' = d) as -> by congruence.
  split; [reflexivity|]. split.
  - intros key Hkey. by rewrite lookup_insert_ne.
  - apply delete_insert_eq.
Qed.

(** X3. The console tells the two paths apart.  A call that returns leaves
    the console as it found it exactly when [step_info] returned; otherwise
    it has added one line, the warning with the gains of the call and the
    exception of [step_info], and the record is the one of line 48. *)
Theorem console_marks_fallback Kp Ki Kd Gs t out out' time response info :
  simulate_pid_with_metrics Kp Ki Kd Gs t out = (out', Return (time, response, info)) →
  (out' = out ↔
   ∃ d, step_info (system_to_sim Kp Ki Kd Gs) t SettlingTimeThreshold = Return d) ∧
  (out' ≠ out →
   ∃ e y, out' = (out ++ [Warning Kp Ki Kd e])%list ∧
          step_info (system_to_sim Kp Ki Kd Gs) t SettlingTimeThreshold = Raise e ∧
          last response = Some y ∧
          info = fallback_record (1.0 - y)%float).
Proof.
  intros Hrun. apply simulate_Return_inv in Hrun as (_ & y & Hy & Hpath).
  destruct Hpath as [(d & Hd & -> & ->)|(e & He & -> & ->)].
  - split; [split; eauto|]. intros Hne. contradiction.
  - split.
    + split.
      * intros Heq. symmetry in Heq. apply console_grows in Heq. contradiction.
      * intros [d Hd]. congruence.
    + intros _. eauto 10.
Qed.

(** ** The structure of the controller *)

(** X4. The two coefficient lists handed to [ct.tf] when a controller is
    built: the denominator list is [[1, 0]] exactly when [Ki != 0], and
    [[1]] otherwise; the numerator list has one entry more than the
    denominator list exactly when [Kd != 0], and as many otherwise.  (These
    are the lists as written on lines 17-23; a leading zero in them, as in
    [[Kp, Ki]] with [Kp == 0], is counted.) *)
Theorem controller_degrees Kp Ki Kd C :
  Cs Kp Ki Kd = Some C →
  den C = (if py_eq0 Ki then [1%float] else [1%float; 0%float]) ∧
  length (num C) = (length (den C) + (if py_eq0 Kd then 0 else 1))%nat.
Proof.
  unfold Cs. rewrite py_ne0_eq0.
  destruct (py_eq0 Kp), (py_eq0 Ki), (py_eq0 Kd); cbn;
    intros [= <-]; split; reflexivity.
Qed.

(** X5. The leading coefficient of the numerator handed to [ct.tf] is a
    gain that is not zero, with one exception: integral action alone
    ([Kp == 0], [Ki != 0], [Kd == 0]), where the numerator is [[Kp, Ki]]
    with the zero [Kp] in front. *)
Theorem controller_leading_coefficient Kp Ki Kd C :
  Cs Kp Ki Kd = Some C →
  (py_eq0 (hd 0%float (num C)) = true ↔
   py_eq0 Kp = true ∧ py_ne0 Ki = true ∧ py_eq0 Kd = true) ∧
  (py_eq0 Kp = true → py_ne0 Ki = true → py_eq0 Kd = true →
   C = tf [Kp; Ki] [1%float; 0%float]).
Proof.
  unfold Cs. rewrite !py_ne0_eq0.
  destruct (py_eq0 Kp) eqn:HKp, (py_eq0 Ki) eqn:HKi, (py_eq0 Kd) eqn:HKd;
    cbn [andb negb]; intros [= <-]; cbn [num hd]; rewrite ?HKp, ?HKd;
    intuition (discriminate || reflexivity).
Qed.

(** ** The driver's reads of a record *)

(** X6. A row of the metrics table after a call that returned.  After the
    handler the three subscripts succeed and give [0.0], [0.0] and
    [1.0 - response[-1]].  After the [try] they give the [Overshoot] and the
    [SettlingTime] of [step_info] and [1.0 - response[-1]], and raise
    [KeyError] for the first of the two keys that [step_info] left out. *)
Theorem metrics_row_after_run Kp Ki Kd Gs t out out' time response info :
  simulate_pid_with_metrics Kp Ki Kd Gs t out = (out', Return (time, response, info)) →
  ∃ y, last response = Some y ∧
    match step_info (system_to_sim Kp Ki Kd Gs) t SettlingTimeThreshold with
    | Raise _ => metrics_row info = Return (0.0, 0.0, 1.0 - y)%float
    | Return d =>
        metrics_row info =
        match d !! "Overshoot", d !! "SettlingTime" with
        | Some overshoot, Some settling_time =>
            Return (overshoot, settling_time, (1.0 - y)%float)
        | Some _, None => Raise (KeyError "SettlingTime")
        | None, _ => Raise (KeyError "Overshoot")
        end
    end.
Proof.
  intros Hrun. apply simulate_Return_inv in Hrun as (_ & y & Hy & Hpath).
  exists y. split; [exact Hy|].
  destruct Hpath as [(d & -> & _ & ->)|(e & -> & _ & ->)].
  - unfold metrics_row, dict_getitem.
    rewrite !lookup_insert_ne, lookup_insert_eq by done.
    destruct (d !! "Overshoot"), (d !! "SettlingTime"); reflexivity.
  - reflexivity.
Qed.

(** ** The tuning loops *)

(** One turn of a loop whose step response has samples and whose label
    finds its key: the curve of that step response is added to the figure
    and at most the warning of the call is printed. *)
Lemma tuning_turn Kp Ki Kd Gs t lg x w :
  has_samples (step_response (system_to_sim Kp Ki Kd Gs) t) = true →
  (∀ d, step_info (system_to_sim Kp Ki Kd Gs) t SettlingTimeThreshold = Return d →
        legend_reads lg ⊆ dom d) →
  ∃ time response l warnings,
    step_response (system_to_sim Kp Ki Kd Gs) t = Return (time, response) ∧
    (let+ '(t_x, r_x, info_x) := lift (simulate_pid_with_metrics Kp Ki Kd Gs t) in
     let+ l := lift (call (make_label lg x info_x)) in
     plt_plot t_x r_x l) w
    = (World (stdout w ++ warnings) (figure w ++ [Plot time response l]), Return tt) ∧
    (length warnings ≤ 1)%nat.
Proof.
  intros Hsamples Hkeys. unfold prog_bind, lift, plt_plot, call.
  rewrite simulate_unfold; cbn zeta.
  destruct (step_response _ t) as [[time [|a response]]|e]; try discriminate.
  destruct (last (a :: response)) as [y|] eqn:Hy;
    [|apply last_None in Hy; discriminate].
  destruct (step_info _ t _) as [d|e].
  - specialize (Hkeys d eq_refl).
    assert (Hl : ∃ l, make_label lg x (<["SteadyStateError" := (1.0 - y)%float]> d)
                      = Return l).
    { destruct lg as [name|Kp']; cbn; [|eauto].
      assert (Hin : "Overshoot" ∈ dom d) by set_solver.
      apply elem_of_dom in Hin as [overshoot Hos].
      unfold dict_getitem. rewrite lookup_insert_ne, Hos by done. eauto. }
    destruct Hl as [l Hl]. exists time, (a :: response), l, [].
    split; [reflexivity|]. cbn. rewrite Hl, app_nil_r. split; [reflexivity|cbn; lia].
  - assert (Hl : ∃ l, make_label lg x (fallback_record (1.0 - y)%float) = Return l).
    { destruct lg as [name|Kp']; cbn; eauto. }
    destruct Hl as [l Hl]. exists time, (a :: response), l, [Warning Kp Ki Kd e].
    split; [reflexivity|]. cbn. rewrite Hl. split; [reflexivity|cbn; lia].
Qed.

(** X7. A tuning loop runs to its end when, for every value of the loop,
    the step response has samples and a dict returned by [step_info] has
    the key the label reads: no failure of [step_info] stops it.  It then
    has added one curve per value, in the order of the values, each the
    step response of the system for that value, and has printed at most one
    warning per value. *)
Theorem tuning_loop_completes (gains : float → float * float * float) lg Gs t
    (xs : list float) w :
  Forall (λ x, let '(Kp, Ki, Kd) := gains x in
               has_samples (step_response (system_to_sim Kp Ki Kd Gs) t) = true ∧
               ∀ d, step_info (system_to_sim Kp Ki Kd Gs) t SettlingTimeThreshold
                      = Return d → legend_reads lg ⊆ dom d) xs →
  ∃ curves warnings,
    tuning_loop gains lg Gs t xs w
      = (World (stdout w ++ warnings) (figure w ++ curves), Return tt) ∧
    (length warnings ≤ length xs)%nat ∧
    Forall2 (λ x c, let '(Kp, Ki, Kd) := gains x in
                    step_response (system_to_sim Kp Ki Kd Gs) t
                      = Return (xdata c, ydata c)) xs curves.
Proof.
  unfold tuning_loop. intros Hall. revert w.
  induction Hall as [|x xs Hx _ IH]; intros w.
  - exists [], []. cbn. rewrite !app_nil_r. destruct w. auto.
  - cbn [for_each]. destruct (gains x) as [[Kp Ki] Kd] eqn:Hg.
    destruct Hx as [Hsamples Hkeys].
    destruct (tuning_turn Kp Ki Kd Gs t lg x w Hsamples Hkeys)
      as (time & response & l & warnings & Hsolve & Hturn & Hlen).
    unfold prog_bind at 1. rewrite Hturn.
    destruct (IH (World (stdout w ++ warnings) (figure w ++ [Plot time response l])))
      as (curves & warnings' & Hrest & Hlen' & Hcurves).
    exists (Plot time response l :: curves), (warnings ++ warnings')%list.
    rewrite Hrest. cbn [stdout figure]. rewrite <- !app_assoc. cbn [app].
    split; [reflexivity|]. split.
    + rewrite length_app. cbn [length]. lia.
    + constructor; [rewrite Hg; exact Hsolve|exact Hcurves].
Qed.

(** X8. An exception of [step_response] stops a tuning loop.  When the
    values before it went well, the loop raises that exception with their
    curves added to the figure and no other: one curve per value before the
    failing one, in the order of the values, each the step response of the
    system for that value; and at most one warning per such value has been
    printed. *)
Theorem tuning_loop_stops_at_solver_failure
    (gains : float → float * float * float) lg Gs t (xs1 : list float) x xs2 w e :
  Forall (λ x, let '(Kp, Ki, Kd) := gains x in
               has_samples (step_response (system_to_sim Kp Ki Kd Gs) t) = true ∧
               ∀ d, step_info (system_to_sim Kp Ki Kd Gs) t SettlingTimeThreshold
                      = Return d → legend_reads lg ⊆ dom d) xs1 →
  (let '(Kp, Ki, Kd) := gains x in
   step_response (system_to_sim Kp Ki Kd Gs) t = Raise e) →
  ∃ curves warnings,
    tuning_loop gains lg Gs t (xs1 ++ x :: xs2) w
      = (World (stdout w ++ warnings) (figure w ++ curves), Raise e) ∧
    length curves = length xs1 ∧
    (length warnings ≤ length xs1)%nat ∧
    Forall2 (λ x c, let '(Kp, Ki, Kd) := gains x in
                    step_response (system_to_sim Kp Ki Kd Gs) t
                      = Return (xdata c, ydata c)) xs1 curves.
Proof.
  unfold tuning_loop. intros Hall Hfail. revert w.
  induction Hall as [|x1 xs1 Hx _ IH]; intros w.
  - exists [], []. cbn [app for_each length].
    destruct (gains x) as [[Kp Ki] Kd].
    unfold prog_bind at 1. unfold prog_bind at 1. unfold lift at 1.
    rewrite simulate_unfold; cbn zeta. rewrite Hfail, !app_nil_r.
    destruct w. auto using Forall2_nil.
  - cbn [app for_each]. destruct (gains x1) as [[Kp Ki] Kd] eqn:Hg.
    destruct Hx as [Hsamples Hkeys].
    destruct (tuning_turn Kp Ki Kd Gs t lg x1 w Hsamples Hkeys)
      as (time & response & l & warnings & Hsolve & Hturn & Hlen).
    unfold prog_bind at 1. rewrite Hturn.
    destruct (IH (World (stdout w ++ warnings) (figure w ++ [Plot time response l])))
      as (curves & warnings' & Hrest & Hlen' & Hlenw & Hcurves).
    exists (Plot time response l :: curves), (warnings ++ warnings')%list.
    rewrite Hrest. cbn [stdout figure]. rewrite <- !app_assoc. cbn [app].
    split; [reflexivity|]. rewrite length_app. cbn [length].
    split; [lia|]. split; [lia|].
    constructor; [rewrite Hg; exact Hsolve|exact Hcurves].
Qed.

End MoreProperties.

(** ** The further properties at concrete inputs *)

Lemma step_info_values_are_kept_witness :
  ∃ time response info d,
    @simulate_pid_with_metrics Reference.control 10 40 1.5 Reference.Gs Reference.grid []
      = ([], Return (time, response, info)) ∧
    @step_info Reference.control
       (@system_to_sim Reference.control 10 40 1.5 Reference.Gs)
       Reference.grid SettlingTimeThreshold = Return d ∧
    (∀ key, key ≠ "SteadyStateError" → info !! key = d !! key) ∧
    delete "SteadyStateError" info = delete "SteadyStateError" d.
Proof.
  pose proof manual_tune_run_eq as Hrun. unfold Reference.manual_tune_run in Hrun.
  pose proof manual_tune_info_eq as Hd. unfold Reference.manual_tune_info in Hd.
  eexists _, _, _, _. split; [exact Hrun|]. split; [exact Hd|].
  exact (proj2 (step_info_values_are_kept _ _ _ _ _ _ _ _ _ _ _ Hrun Hd)).
Defined.

Lemma console_marks_fallback_witness :
  (∃ time response info,
     @simulate_pid_with_metrics Reference.control 10 40 1.5 Reference.Gs Reference.grid []
       = ([], Return (time, response, info)) ∧
     ∃ d, @step_info Reference.control
            (@system_to_sim Reference.control 10 40 1.5 Reference.Gs)
            Reference.grid SettlingTimeThreshold = Return d) ∧
  (∃ out' time response info,
     @simulate_pid_with_metrics Reference.control (-1000) (-1000) (-1000)
        Reference.Gs Reference.grid []
       = (out', Return (time, response, info)) ∧
     ∃ e y, out' = [Warning (-1000) (-1000) (-1000) e] ∧
            @step_info Reference.control
              (@system_to_sim Reference.control (-1000) (-1000) (-1000) Reference.Gs)
              Reference.grid SettlingTimeThreshold = Raise e ∧
            last response = Some y ∧
            info = fallback_record (1.0 - y)%float).
Proof.
  split.
  - pose proof manual_tune_run_eq as Hrun. unfold Reference.manual_tune_run in Hrun.
    eexists _, _, _. split; [exact Hrun|].
    exact (proj1 (proj1 (console_marks_fallback _ _ _ _ _ _ _ _ _ _ Hrun)) eq_refl).
  - pose proof unstable_run_eq as Hrun. unfold Reference.unstable_run in Hrun.
    eexists _, _, _, _. split; [exact Hrun|].
    apply (proj2 (console_marks_fallback _ _ _ _ _ _ _ _ _ _ Hrun)).
    discriminate.
Defined.

Lemma controller_degrees_witness :
  den (tf [1.5; 10; 40] [1; 0])%float = [1; 0]%float ∧
  length (num (tf [1.5; 10; 40] [1; 0])%float) = 3%nat.
Proof. exact (controller_degrees 10 40 1.5 _ eq_refl). Defined.

(** Integral action alone, [(Kp, Ki, Kd) = (0, 5, 0)]: the numerator is
    [[0, 5]]. *)
Lemma controller_leading_coefficient_witness :
  Cs 0 5 0 = Some (tf [0; 5] [1; 0])%float ∧
  py_eq0 (hd 0%float (num (tf [0; 5] [1; 0])%float)) = true.
Proof.
  split; [reflexivity|].
  apply (proj1 (controller_leading_coefficient 0 5 0 _ eq_refl)).
  repeat split.
Defined.

Lemma metrics_row_after_run_witness :
  (∃ time response info,
     @simulate_pid_with_metrics Reference.control 10 40 1.5 Reference.Gs Reference.grid []
       = ([], Return (time, response, info)) ∧
     ∃ y overshoot settling_time,
       last response = Some y ∧
       metrics_row info = Return (overshoot, settling_time, (1.0 - y)%float)) ∧
  (∃ out' time response info,
     @simulate_pid_with_metrics Reference.control (-1000) (-1000) (-1000)
        Reference.Gs Reference.grid []
       = (out', Return (time, response, info)) ∧
     ∃ y, last response = Some y ∧
          metrics_row info = Return (0.0, 0.0, 1.0 - y)%float).
Proof.
  split.
  - pose proof manual_tune_run_eq as Hrun. unfold Reference.manual_tune_run in Hrun.
    eexists _, _, _. split; [exact Hrun|].
    destruct (metrics_row_after_run _ _ _ _ _ _ _ _ _ _ Hrun) as (y & Hy & Hrow).
    rewrite manual_tune_info_eq in Hrow. unfold Reference.manual_tune_info in Hrow.
    exists y. eexists _, _. split; [exact Hy|]. exact Hrow.
  - pose proof unstable_run_eq as Hrun. unfold Reference.unstable_run in Hrun.
    eexists _, _, _, _. split; [exact Hrun|].
    destruct (metrics_row_after_run _ _ _ _ _ _ _ _ _ _ Hrun) as (y & Hy & Hrow).
    rewrite unstable_info_raises in Hrow. eauto.
Defined.

(** The loop of lines 89-91 on the driver's plant: three curves. *)
Lemma tuning_loop_completes_witness :
  ∃ curves warnings,
    @plot2_loop Reference.control Reference.Gs Reference.grid (World [] [])
      = (World ([] ++ warnings)%list ([] ++ curves)%list, Return tt) ∧
    (length warnings ≤ 3)%nat ∧
    Forall2 (λ x c, @step_response Reference.control
                      (@system_to_sim Reference.control x 0 0 Reference.Gs)
                      Reference.grid = Return (xdata c, ydata c))
            [5; 10; 15]%float curves.
Proof.
  apply (@tuning_loop_completes Reference.control (λ i, (i, 0, 0)%float)
           (OvershootLegend "Kp") Reference.Gs Reference.grid
           [5; 10; 15]%float (World [] [])).
  repeat (constructor;
          [split; [vm_compute; reflexivity|];
           intros d Hd; apply reference_info_of_keys in Hd; rewrite Hd;
           apply (bool_decide_unpack _); vm_compute; exact I|]).
  constructor.
Defined.

(** A proportional sweep over [5, 0, 15] on the improper plant: the gain
    [5] closes the loop and is plotted, the gain [0] leaves the plant alone
    and the reference solver refuses it. *)
Lemma tuning_loop_stops_at_solver_failure_witness :
  ∃ curves warnings,
    @tuning_loop Reference.control (λ i, (i, 0, 0)%float) (OvershootLegend "Kp")
       Reference.improper_plant Reference.grid ([5] ++ 0 :: [15])%float%list
       (World [] [])
      = (World ([] ++ warnings)%list ([] ++ curves)%list,
         Raise (Reference.ValueError "the transfer function is improper")) ∧
    length curves = 1%nat ∧
    (length warnings ≤ 1)%nat ∧
    Forall2 (λ x c, @step_response Reference.control
                      (@system_to_sim Reference.control x 0 0 Reference.improper_plant)
                      Reference.grid = Return (xdata c, ydata c))
            [5]%float curves.
Proof.
  apply (@tuning_loop_stops_at_solver_failure Reference.control
           (λ i, (i, 0, 0)%float) (OvershootLegend "Kp")
           Reference.improper_plant Reference.grid [5]%float 0%float [15]%float
           (World [] [])).
  - constructor; [|constructor].
    split; [vm_compute; reflexivity|].
    intros d Hd. apply reference_info_of_keys in Hd. rewrite Hd.
    apply (bool_decide_unpack _). vm_compute. exact I.
  - vm_compute. reflexivity.
Defined.
